(** * authservice: request-shape validation, gateway mapping and token issuance

    A shallow embedding of [authservice.go] (package [main]): the two echo
    handlers [createUser] and [authUser], the reflection-driven validator
    [validateContext] / [getResourceFields], and the token issuer
    [generateJwt].

    The Go code works on a mutable request context [c], reads the wall clock
    and one file, and calls package [user].  All of that is threaded here as
    one explicit [World] through a small state-and-panic monad [M]. *)

From stdpp Require Import base numbers strings list gmap.

Open Scope string_scope.
Open Scope Z_scope.
Open Scope list_scope.

(** ** Errors

    Go [error] values.  The three sentinels of package [main], the sentinel of
    package [user] the create handler switches on, and every other error a
    library hands back (kept with the name of its origin and its message). *)
Inductive error : Type :=
| ReqLengthStructLengthNotEqual
| ReqFieldsStructFieldsNotEqual
| StructNotRecognized
| UserAlreadyExists
| OtherError (origin msg : string).

#[global] Instance error_eq_dec : EqDecision error.
Proof. solve_decision. Defined.

(** ** Reflection

    [reflect.Kind], in the order of the Go declaration. *)
Inductive Kind : Type :=
| Invalid | Bool
| Int | Int8 | Int16 | Int32 | Int64
| Uint | Uint8 | Uint16 | Uint32 | Uint64 | Uintptr
| Float32 | Float64 | Complex64 | Complex128
| Array | Chan | Func | Interface | Map | Ptr | Slice
| String | Struct | UnsafePointer.

#[global] Instance Kind_eq_dec : EqDecision Kind.
Proof. solve_decision. Defined.

(** A [reflect.Value] as far as the validator looks at it: its kind and, for a
    struct, its fields in declaration order, each with the name
    [resource.Type().Field(i).Name] and the value [resource.Field(i)].
    [fields] is only ever read under kind [Struct]: on every other kind
    [NumField] panics. *)
#[warnings="-register-all"]
Inductive Value : Type :=
| mkValue (kind : Kind) (fields : list (string * Value)).

Definition ValueKind (v : Value) : Kind :=
  match v with mkValue k _ => k end.

Definition ValueFields (v : Value) : list (string * Value) :=
  match v with mkValue _ fs => fs end.

(** A field of a non-struct kind. *)
Definition plain (k : Kind) : Value := mkValue k [].

(** [type authUserReq struct { UserID string; Password string }] *)
Definition authUserReq : Value :=
  mkValue Struct [("UserID", plain String); ("Password", plain String)].

(** [type createUserReq struct { authUserReq; Email string }]: the embedded
    struct is field 0, named after its type. *)
Definition createUserReq : Value :=
  mkValue Struct [("authUserReq", authUserReq); ("Email", plain String)].

(** ** The world a handler runs in *)

(** Arguments of a [Printf] on the context's logger, kept unformatted. *)
Inductive LogArg : Type :=
| ArgError (e : error)
| ArgInt (n : nat)
| ArgValueString (v : Value).   (* resource.String() *)

Definition LogEntry : Type := string * list LogArg.

(** package [user] *)
Record AuthCredentials : Type := mkAuthCredentials {
  UserID : string;
  Password : string
}.

Record User : Type := mkUser {
  Credentials : AuthCredentials;   (* the embedded user.AuthCredentials *)
  Email : string
}.

(** What the handlers do to the outside, oldest first. *)
Inductive Event : Type :=
| CallCreateUser (u : User)
| CallAuthUser (aC : AuthCredentials)
| CallReadFile (path : string).

(** The request's form is what the framework parses from the body and the
    query.  [ParseErr] is the error that parse runs into, still to be
    reported: [http.Request.ParseForm] reports it to the first caller, keeps
    the fields it could read in the form, and from then on answers with that
    form and no error. *)
Record World : Type := mkWorld {
  (* the request behind the echo context c *)
  Form : gmap string (list string);   (* c.Request().Form, a url.Values *)
  ParseErr : option error;            (* the parse error not yet reported *)
  (* what the handler has written to c *)
  Logger : list LogEntry;
  Header : gmap string string;        (* c.Response().Header() *)
  Status : option Z;                  (* the code given to c.NoContent *)
  (* the process environment *)
  Files : gmap string (list Byte.byte);
  Clock : nat -> Z;                   (* the k-th reading of time.Now, as Unix seconds *)
  Ticks : nat;                        (* readings taken so far *)
  Trace : list Event
}.

Definition set_ParseErr (e : option error) (w : World) : World :=
  mkWorld (Form w) e (Logger w) (Header w) (Status w)
          (Files w) (Clock w) (Ticks w) (Trace w).

(** The world once the form has been parsed and its error, if any, handed
    out. *)
Definition parsed (w : World) : World := set_ParseErr None w.

Definition set_Logger (l : list LogEntry) (w : World) : World :=
  mkWorld (Form w) (ParseErr w) l (Header w) (Status w)
          (Files w) (Clock w) (Ticks w) (Trace w).

Definition set_Header (h : gmap string string) (w : World) : World :=
  mkWorld (Form w) (ParseErr w) (Logger w) h (Status w)
          (Files w) (Clock w) (Ticks w) (Trace w).

Definition set_Status (st : option Z) (w : World) : World :=
  mkWorld (Form w) (ParseErr w) (Logger w) (Header w) st
          (Files w) (Clock w) (Ticks w) (Trace w).

Definition set_Files (fs : gmap string (list Byte.byte)) (w : World) : World :=
  mkWorld (Form w) (ParseErr w) (Logger w) (Header w) (Status w)
          fs (Clock w) (Ticks w) (Trace w).

Definition set_Ticks (n : nat) (w : World) : World :=
  mkWorld (Form w) (ParseErr w) (Logger w) (Header w) (Status w)
          (Files w) (Clock w) n (Trace w).

Definition set_Trace (t : list Event) (w : World) : World :=
  mkWorld (Form w) (ParseErr w) (Logger w) (Header w) (Status w)
          (Files w) (Clock w) (Ticks w) t.

(** ** The monad: state plus Go panics *)
Inductive Res (A : Type) : Type :=
| Returned (a : A) (w : World)
| Panicked (msg : string).
Arguments Returned {A} a w.
Arguments Panicked {A} msg.

Definition M (A : Type) : Type := World -> Res A.

#[global] Instance M_ret : MRet M := fun A a w => Returned a w.

#[global] Instance M_bind : MBind M := fun A B k m w =>
  match m w with
  | Returned a w' => k a w'
  | Panicked msg => Panicked msg
  end.

Definition panic {A} (msg : string) : M A := fun _ => Panicked msg.

Definition get {A} (f : World -> A) : M A := fun w => Returned (f w) w.
Definition modify (f : World -> World) : M unit := fun w => Returned tt (f w).

(** ** The echo context *)

(** The world after one more line on the context's logger. *)
Definition logged (w : World) (format : string) (args : list LogArg) : World :=
  set_Logger (Logger w ++ [(format, args)]) w.

(** [c.Logger().Printf(format, args...)] *)
Definition Printf (format : string) (args : list LogArg) : M unit :=
  modify (fun w => logged w format args).

(** [c.FormParams()]: the parsed form, or [nil] and the parse error.  The
    error is handed out once: a later call on the same context finds the
    form already parsed and returns it with no error. *)
Definition FormParams : M (gmap string (list string) * option error) :=
  fun w => match ParseErr w with
           | Some err => Returned (∅, Some err) (parsed w)
           | None => Returned (Form w, None) w
           end.

(** The first value stored under [key], or the empty string when there is
    none: what [http.Request.FormValue] reads from the form. *)
Definition Get (values : gmap string (list string)) (key : string) : string :=
  match values !! key with
  | Some (v :: _) => v
  | _ => EmptyString
  end.

(** [c.FormValue(name)].  Every call in this program comes after
    [validateContext] has called [c.FormParams()], so the form is parsed by
    then and this is a read. *)
Definition FormValue (name : string) : M string :=
  get (fun w => Get (Form w) name).

(** [c.Logger().Print(args...)] *)
Definition Print (args : list LogArg) : M unit :=
  modify (fun w => logged w "%v" args).

(** [c.Response().Header().Set(key, value)]; the canonical spelling Go gives
    the key is left out. *)
Definition HeaderSet (key value : string) : M unit :=
  modify (fun w => set_Header (<[key := value]> (Header w)) w).

(** [c.NoContent(code)] *)
Definition NoContent (code : Z) : M unit :=
  modify (set_Status (Some code)).

Definition StatusOK : Z := 200.
Definition StatusCreated : Z := 201.
Definition StatusBadRequest : Z := 400.
Definition StatusUnauthorized : Z := 401.
Definition StatusConflict : Z := 409.
Definition StatusInternalServerError : Z := 500.

(** ** getResourceFields *)

(** The loop [for i := 0; i < resource.NumField(); i++] runs over the fields
    in declaration order, appending to [rFields]; a field of kind [Struct] is
    entered, every other field contributes its own name.  [NumField] panics
    when [resource] is not a struct.  The context [c] (here: the world) is
    passed along and never touched. *)
Fixpoint getResourceFields (resource : Value) : M (list string) :=
  match resource with
  | mkValue Struct fields =>
      (fix loop (rest : list (string * Value)) (rFields : list string)
         : M (list string) :=
         match rest with
         | [] => mret rFields
         | (fieldName, fieldValue) :: rest' =>
             if decide (ValueKind fieldValue = Struct) then
               recFields ← getResourceFields fieldValue;
               loop rest' (rFields ++ recFields)
             else
               loop rest' (rFields ++ [fieldName])
         end) fields []
  | mkValue _ _ => panic "reflect: call of reflect.Value.NumField on non-struct Value"
  end.

(** ** validateContext *)

(** The [for _, v := range fields] loop with its early return. *)
Fixpoint checkFields (fields : list string) : M (option error) :=
  match fields with
  | [] => mret None
  | v :: rest =>
      stringValue ← FormValue v;
      if decide (stringValue = "") then
        Printf "Request was missing key:value pairs." [] ;;
        mret (Some ReqFieldsStructFieldsNotEqual)
      else checkFields rest
  end.

Definition validateContext (resource : Value) : M (option error) :=
  fields ← getResourceFields resource;
  '(reqForm, err) ← FormParams;
  match err with
  | Some e =>
      Printf "validateRequest Failed with error: %v" [ArgError e] ;;
      mret (Some e)
  | None =>
      if decide (size reqForm ≠ length fields) then
        Printf "validateRequest failed, reqForm length = %v and %v length = %v."
               [ArgInt (size reqForm); ArgValueString resource;
                ArgInt (length fields)] ;;
        mret (Some ReqLengthStructLengthNotEqual)
      else checkFields fields
  end.

(** ** Libraries the issuer calls *)

(** The error of reading a file that is not there. *)
Definition noSuchFile (path : string) : error :=
  OtherError "ioutil.ReadFile" ("open " +:+ path +:+ ": no such file or directory").

(** [ioutil.ReadFile(path)]: the bytes of the file, or an error when there is
    none.  Every read is recorded in the trace. *)
Definition ReadFile (path : string) : M (list Byte.byte * option error) :=
  modify (fun w => set_Trace (Trace w ++ [CallReadFile path]) w) ;;
  get (fun w => match Files w !! path with
                | Some p => (p, None)
                | None => ([], Some (noSuchFile path))
                end).

(** [time.Now()]: the next reading of the wall clock.  A [time.Time] is kept
    as its Unix seconds, which is all [Unix()] returns. *)
Definition Now : M Z :=
  t ← get (fun w => Clock w (Ticks w));
  modify (fun w => set_Ticks (S (Ticks w)) w) ;;
  mret t.

(** [t.UTC()] changes the location, not the instant. *)
Definition UTC (t : Z) : Z := t.

(** [t.AddDate(0, 0, days)] on a UTC time: a UTC calendar day is 86400
    seconds (no zone transitions, and Go's clock has no leap seconds). *)
Definition AddDate_days (days : Z) (t : Z) : Z := t + days * 86400.

(** [t.Unix()] *)
Definition Unix (t : Z) : Z := t.

(** Values stored in a [jwt.MapClaims] ([map[string]interface{}]). *)
Inductive ClaimValue : Type :=
| ClaimString (s : string)
| ClaimInt64 (n : Z).

#[global] Instance ClaimValue_eq_dec : EqDecision ClaimValue.
Proof. solve_decision. Defined.

Inductive SigningMethod : Type := SigningMethodRS256.

(** The [jwt.Claims] interface: the map implementation, or any other one. *)
Inductive Claims : Type :=
| MapClaims (m : gmap string ClaimValue)
| OtherClaims.

Record Token : Type := mkToken {
  Method : SigningMethod;
  TokenClaims : Claims
}.

(** [jwt.New(method)] is [NewWithClaims(method, MapClaims{})]. *)
Definition jwt_New (method : SigningMethod) : Token :=
  mkToken method (MapClaims ∅).

Definition keyPath : string := "/home/tjp/.ssh/jwt_private.pem".

Section Handlers.

(** The collaborators that are not part of package [main]: the two
    operations of package [user], whose reply may depend on everything done
    so far, and the two pure functions of the jwt library. *)
Context {PrivateKey : Type}.
Variable user_CreateUser : list Event -> User -> option error.
Variable user_AuthUser : list Event -> AuthCredentials -> option error.
Variable ParseRSAPrivateKeyFromPEM : list Byte.byte -> PrivateKey + error.
Variable SignedString : Token -> PrivateKey -> string + error.

Definition CreateUser (u : User) : M (option error) :=
  reply ← get (fun w => user_CreateUser (Trace w) u);
  modify (fun w => set_Trace (Trace w ++ [CallCreateUser u]) w) ;;
  mret reply.

Definition AuthUser (aC : AuthCredentials) : M (option error) :=
  reply ← get (fun w => user_AuthUser (Trace w) aC);
  modify (fun w => set_Trace (Trace w ++ [CallAuthUser aC]) w) ;;
  mret reply.

(** *** generateJwt

    [claims] is the map inside [t] (a Go map is a reference), so the five
    assignments are what [t.SignedString] signs.  The type assertion on
    [t.Claims] cannot fail after [jwt.New]; its branch returns the [err] of
    the successful read, which is [nil]. *)
Definition generateJwt (UserID : string) : M (string * option error) :=
  '(p, err) ← ReadFile keyPath;
  match err with
  | Some e => mret ("", Some e)
  | None =>
      let t := jwt_New SigningMethodRS256 in
      match TokenClaims t with
      | OtherClaims => mret ("", err)
      | MapClaims claims =>
          let claims := <["iss" := ClaimString "Auth-Service"]> claims in
          let claims := <["sub" := ClaimString UserID]> claims in
          let claims := <["aud" := ClaimString "Moment-Service"]> claims in
          now ← Now;
          let claims :=
            <["exp" := ClaimInt64 (Unix (AddDate_days 7 (UTC now)))]> claims in
          now' ← Now;
          let claims := <["iat" := ClaimInt64 (Unix (UTC now'))]> claims in
          let t := mkToken (Method t) (MapClaims claims) in
          match ParseRSAPrivateKeyFromPEM p with
          | inr e => mret ("", Some e)
          | inl key =>
              match SignedString t key with
              | inr e => mret ("", Some e)
              | inl token => mret (token, None)
              end
          end
      end
  end.

(** *** createUser *)
Definition createUser : M unit :=
  let resource := createUserReq in
  err ← validateContext resource;
  match err with
  | Some e =>
      Printf "main.ValidateContext Failed with err: %v" [ArgError e] ;;
      NoContent StatusBadRequest
  | None =>
      userID ← FormValue "UserID";
      password ← FormValue "Password";
      email ← FormValue "Email";
      let u := mkUser (mkAuthCredentials userID password) email in
      let status := StatusCreated in
      err ← CreateUser u;
      status ← match err with
               | Some e =>
                   Printf "user.CreateUser Failed with error: %v" [ArgError e] ;;
                   match e with
                   | UserAlreadyExists => mret StatusConflict
                   | _ => mret StatusInternalServerError
                   end
               | None => mret status
               end;
      NoContent status
  end.

(** *** authUser *)
Definition authUser : M unit :=
  let resource := authUserReq in
  err ← validateContext resource;
  match err with
  | Some e =>
      Printf "main.ValidateContext Failed with err: %v" [ArgError e] ;;
      NoContent StatusBadRequest
  | None =>
      userID ← FormValue "UserID";
      password ← FormValue "Password";
      let aC := mkAuthCredentials userID password in
      err ← AuthUser aC;
      match err with
      | Some e =>
          Printf "user.AuthUser Failed with error: %v" [ArgError e] ;;
          NoContent StatusUnauthorized
      | None =>
          userID' ← FormValue "UserID";
          '(token, err) ← generateJwt userID';
          match err with
          | Some e =>
              Print [ArgError e] ;;
              NoContent StatusInternalServerError
          | None =>
              HeaderSet "jwt" token ;;
              NoContent StatusOK
          end
      end
  end.

End Handlers.

(** ** The schema of the specification

    A declared tree of field descriptors: a leaf holds one value, a group is
    itself a schema. *)
#[warnings="-register-all"]
Inductive Field : Type :=
| Leaf (name : string)
| Group (name : string) (children : list Field).

Definition Schema : Type := list Field.

(** [flatten] in the specification's words: depth-first; a leaf emits its
    name; a group recurses; the emitted names are concatenated in declaration
    order. *)
Fixpoint flattenField (f : Field) : list string :=
  match f with
  | Leaf name => [name]
  | Group _ children => concat (map flattenField children)
  end.

Definition flatten (schema : Schema) : list string :=
  concat (map flattenField schema).

(** The schema a struct value declares: a field of kind [Struct] is a group,
    a field of any other kind is a leaf. *)
Fixpoint fieldOf (name : string) (v : Value) : Field :=
  match v with
  | mkValue Struct fields => Group name (map (fun nf => fieldOf nf.1 nf.2) fields)
  | mkValue _ _ => Leaf name
  end.

Definition schemaOf (resource : Value) : Schema :=
  map (fun nf => fieldOf nf.1 nf.2) (ValueFields resource).

(** The struct value that declares a schema, with string leaves. *)
Fixpoint valueOfField (f : Field) : string * Value :=
  match f with
  | Leaf name => (name, plain String)
  | Group name children => (name, mkValue Struct (map valueOfField children))
  end.

Definition structOf (schema : Schema) : Value :=
  mkValue Struct (map valueOfField schema).

(** The loop of [getResourceFields], named. *)
Definition fieldLoop : list (string * Value) -> list string -> M (list string) :=
  fix loop (rest : list (string * Value)) (rFields : list string)
    : M (list string) :=
    match rest with
    | [] => mret rFields
    | (fieldName, fieldValue) :: rest' =>
        if decide (ValueKind fieldValue = Struct) then
          recFields ← getResourceFields fieldValue;
          loop rest' (rFields ++ recFields)
        else
          loop rest' (rFields ++ [fieldName])
    end.

(** ** Observations and fixtures *)

(** What a run returned, if it did not panic. *)
Definition result {A} (r : Res A) : option A :=
  match r with
  | Returned a _ => Some a
  | Panicked _ => None
  end.

(** The world a run left behind. *)
Definition after {A} (w : World) (r : Res A) : World :=
  match r with
  | Returned _ w' => w'
  | Panicked _ => w
  end.

(** [m] run [n] times for its effects, then once more. *)
Fixpoint again {A} (n : nat) (m : M A) : M A :=
  match n with
  | O => m
  | S n' => m ;; again n' m
  end.

(** A call into package [user] that carries no empty field. *)
Definition nonEmptyCall (ev : Event) : Prop :=
  match ev with
  | CallCreateUser u =>
      UserID (Credentials u) ≠ EmptyString /\
      Password (Credentials u) ≠ EmptyString /\
      Email u ≠ EmptyString
  | CallAuthUser aC => UserID aC ≠ EmptyString /\ Password aC ≠ EmptyString
  | CallReadFile _ => True
  end.

Definition isUserCall (ev : Event) : bool :=
  match ev with
  | CallCreateUser _ | CallAuthUser _ => true
  | CallReadFile _ => false
  end.

(** The claim set in the specification's words: issuer, subject, audience,
    issued-at and expiry, and nothing else. *)
Definition claimSet (sub : string) (iat exp : Z) : gmap string ClaimValue :=
  {[ "iss" := ClaimString "Auth-Service";
     "sub" := ClaimString sub;
     "aud" := ClaimString "Moment-Service";
     "iat" := ClaimInt64 iat;
     "exp" := ClaimInt64 exp ]}.

(** What [generateJwt] hands back for the outcome of [t.SignedString(key)]. *)
Definition signed (outcome : string + error) : string * option error :=
  match outcome with
  | inl token => (token, None)
  | inr e => (EmptyString, Some e)
  end.

(** A fresh request carrying [form], in a process whose clock reads [clock]
    and whose file system is [files]. *)
Definition request (form : gmap string (list string))
    (files : gmap string (list Byte.byte)) (clock : nat -> Z) : World :=
  mkWorld form None [] ∅ None files clock 0 [].

(** Stand-ins for the jwt library in closed examples: every non-empty file
    parses to a key (its bytes), and signing any token yields one fixed
    string. *)
Definition stubParsePEM (p : list Byte.byte) : list Byte.byte + error :=
  match p with
  | [] => inr (OtherError "jwt" "Invalid Key: Key must be PEM encoded PKCS1 or PKCS8 private key")
  | _ => inl p
  end.

Definition stubSignedString (t : Token) (key : list Byte.byte) : string + error :=
  inl "header.claims.signature".

(** A key file with some content. *)
Definition someKeyFile : gmap string (list Byte.byte) :=
  {[ keyPath := [Byte.x2d; Byte.x2d] ]}.

(** ** Reasoning principles *)

Lemma Value_nested_ind (P : Value -> Prop) :
  (forall k fields, Forall (fun nf => P nf.2) fields -> P (mkValue k fields)) ->
  forall v, P v.
Proof.
  intros step. fix IH 1. intros [k fields]. apply step.
  induction fields as [|[name v] rest IHrest]; constructor; [apply IH | exact IHrest].
Qed.

Lemma Field_nested_ind (P : Field -> Prop) :
  (forall name, P (Leaf name)) ->
  (forall name children, Forall P children -> P (Group name children)) ->
  forall f, P f.
Proof.
  intros leaf group. fix IH 1. intros [name|name children]; [apply leaf|].
  apply group. induction children as [|c rest IHrest]; constructor;
    [apply IH | exact IHrest].
Qed.

Lemma getResourceFields_struct fields :
  getResourceFields (mkValue Struct fields) = fieldLoop fields [].
Proof. reflexivity. Qed.

Lemma getResourceFields_non_struct k fields w :
  k ≠ Struct ->
  getResourceFields (mkValue k fields) w =
  Panicked "reflect: call of reflect.Value.NumField on non-struct Value".
Proof. intros Hk. destruct k; try reflexivity. congruence. Qed.

Lemma flattenField_fieldOf name k fields :
  flattenField (fieldOf name (mkValue k fields)) =
  if decide (k = Struct) then flatten (schemaOf (mkValue k fields)) else [name].
Proof. destruct k; reflexivity. Qed.

Lemma fieldLoop_cons name v rest rFields :
  fieldLoop ((name, v) :: rest) rFields =
  if decide (ValueKind v = Struct) then
    recFields ← getResourceFields v; fieldLoop rest (rFields ++ recFields)
  else fieldLoop rest (rFields ++ [name]).
Proof. reflexivity. Qed.

Lemma flatten_cons f schema : flatten (f :: schema) = flattenField f ++ flatten schema.
Proof. reflexivity. Qed.

Lemma bind_returned {A B} (m : M A) (k : A -> M B) w a w' :
  m w = Returned a w' -> (m ≫= k) w = k a w'.
Proof. intros H. unfold mbind, M_bind. by rewrite H. Qed.

Lemma bind_panicked {A B} (m : M A) (k : A -> M B) w msg :
  m w = Panicked msg -> (m ≫= k) w = Panicked msg.
Proof. intros H. unfold mbind, M_bind. by rewrite H. Qed.

Lemma fieldLoop_flatten fields :
  Forall (fun nf => ValueKind nf.2 = Struct -> forall w,
            getResourceFields nf.2 w = Returned (flatten (schemaOf nf.2)) w) fields ->
  forall rFields w,
    fieldLoop fields rFields w =
    Returned (rFields ++ flatten (map (fun nf => fieldOf nf.1 nf.2) fields)) w.
Proof.
  induction 1 as [|[name v] rest Hv _ IH]; intros rFields w.
  - cbn. by rewrite app_nil_r.
  - rewrite fieldLoop_cons, map_cons, flatten_cons.
    destruct v as [k sub]. cbn [fst snd ValueKind] in *.
    rewrite flattenField_fieldOf.
    destruct (decide (k = Struct)) as [Hk|Hk].
    + rewrite (bind_returned _ _ _ _ _ (Hv Hk w)), IH. by rewrite <- app_assoc.
    + rewrite IH. by rewrite <- app_assoc.
Qed.

(** On a struct, [getResourceFields] returns the flattened schema and leaves
    the world as it found it. *)
Lemma getResourceFields_flatten resource w :
  ValueKind resource = Struct ->
  getResourceFields resource w = Returned (flatten (schemaOf resource)) w.
Proof.
  revert w. induction resource as [k fields IH] using Value_nested_ind.
  intros w Hk. simpl in Hk. subst k.
  rewrite getResourceFields_struct.
  rewrite fieldLoop_flatten; [reflexivity|].
  eapply Forall_impl; [exact IH|]. intros nf Hnf Hs w'. by apply Hnf.
Qed.

Lemma schemaOf_structOf schema : schemaOf (structOf schema) = schema.
Proof.
  unfold schemaOf, structOf. simpl. rewrite map_map.
  induction schema as [|f rest IH]; [reflexivity|].
  simpl. rewrite IH. f_equal. clear IH rest.
  induction f as [name|name children IHc] using Field_nested_ind; [reflexivity|].
  simpl. f_equal. rewrite map_map.
  induction IHc as [|c rest Hc _ IH]; [reflexivity|].
  simpl. by rewrite Hc, IH.
Qed.

(** ** The validator *)

Lemma checkFields_cons v rest w :
  checkFields (v :: rest) w =
  if decide (Get (Form w) v = "") then
    Returned (Some ReqFieldsStructFieldsNotEqual)
             (logged w "Request was missing key:value pairs." [])
  else checkFields rest w.
Proof.
  cbn [checkFields]. unfold mbind, M_bind, FormValue, get.
  destruct (decide (Get (Form w) v = "")); reflexivity.
Qed.

Lemma checkFields_all_present fields w :
  Forall (fun v => Get (Form w) v ≠ "") fields ->
  checkFields fields w = Returned None w.
Proof.
  induction 1 as [|v rest Hv _ IH]; [reflexivity|].
  rewrite checkFields_cons. by destruct (decide (Get (Form w) v = "")).
Qed.

Lemma checkFields_one_blank fields w :
  Exists (fun v => Get (Form w) v = "") fields ->
  checkFields fields w =
  Returned (Some ReqFieldsStructFieldsNotEqual)
           (logged w "Request was missing key:value pairs." []).
Proof.
  induction fields as [|v rest IH]; intros Hex; [by apply Exists_nil in Hex|].
  rewrite checkFields_cons.
  destruct (decide (Get (Form w) v = "")) as [|Hv]; [reflexivity|].
  apply IH. by apply Exists_cons in Hex as [|].
Qed.

(** [Get] is blank exactly for an omitted key, a key without values, and a
    key whose first value is the empty string. *)
Lemma Get_blank (values : gmap string (list string)) key :
  Get values key = "" <->
  values !! key = None \/ values !! key = Some [] \/
  exists more, values !! key = Some ("" :: more).
Proof.
  unfold Get. destruct (values !! key) as [[|v more]|]; split; intros H; eauto.
  - subst v. eauto.
  - destruct H as [H|[H|[more' H]]]; congruence.
Qed.

(** [validateContext] on a struct, step by step. *)
Lemma validateContext_struct resource w :
  ValueKind resource = Struct ->
  validateContext resource w =
  let fields := flatten (schemaOf resource) in
  match ParseErr w with
  | Some e =>
      Returned (Some e)
        (logged (parsed w) "validateRequest Failed with error: %v" [ArgError e])
  | None =>
      if decide (size (Form w) ≠ length fields) then
        Returned (Some ReqLengthStructLengthNotEqual)
          (logged w "validateRequest failed, reqForm length = %v and %v length = %v."
                  [ArgInt (size (Form w)); ArgValueString resource;
                   ArgInt (length fields)])
      else checkFields fields w
  end.
Proof.
  intros Hk. unfold validateContext.
  rewrite (bind_returned _ _ _ _ _ (getResourceFields_flatten resource w Hk)).
  unfold mbind, M_bind, FormParams. cbn zeta.
  destruct (ParseErr w) as [e|]; [reflexivity|].
  destruct (decide (size (Form w) ≠ length (flatten (schemaOf resource))));
    reflexivity.
Qed.

Lemma validateContext_non_struct resource w :
  ValueKind resource ≠ Struct ->
  validateContext resource w =
  Panicked "reflect: call of reflect.Value.NumField on non-struct Value".
Proof.
  intros Hk. destruct resource as [k fields]. unfold validateContext.
  apply bind_panicked. by apply getResourceFields_non_struct.
Qed.

(** Validation writes to the logger and to nothing else. *)
Lemma checkFields_frame fields w :
  exists err l,
    checkFields fields w = Returned err (set_Logger l w).
Proof.
  induction fields as [|v rest IH].
  - exists None, (Logger w). by destruct w.
  - rewrite checkFields_cons. destruct (decide (Get (Form w) v = "")); eauto.
Qed.

Lemma parsed_id w : ParseErr w = None -> parsed w = w.
Proof. destruct w. cbn. by intros ->. Qed.

Lemma validateContext_frame resource w :
  ValueKind resource = Struct ->
  exists err l,
    validateContext resource w = Returned err (set_Logger l (parsed w)).
Proof.
  intros Hk. rewrite validateContext_struct by done. cbn zeta.
  destruct (ParseErr w) eqn:Hparse; [eauto|]. rewrite (parsed_id w Hparse).
  destruct (decide _); [eauto|]. apply checkFields_frame.
Qed.

(** The decision depends on the request's form and on the schema only. *)
Lemma checkFields_same_form fields w1 w2 :
  Form w1 = Form w2 ->
  result (checkFields fields w1) = result (checkFields fields w2).
Proof.
  intros Hform. induction fields as [|v rest IH]; [reflexivity|].
  rewrite !checkFields_cons, Hform.
  destruct (decide (Get (Form w2) v = "")); [reflexivity | exact IH].
Qed.

Lemma validateContext_same_request resource w1 w2 :
  Form w1 = Form w2 -> ParseErr w1 = ParseErr w2 ->
  result (validateContext resource w1) = result (validateContext resource w2).
Proof.
  intros Hform Herr.
  destruct (decide (ValueKind resource = Struct)) as [Hk|Hk].
  - rewrite !validateContext_struct by done. cbn zeta. rewrite Hform, Herr.
    destruct (ParseErr w2); [reflexivity|].
    destruct (decide _); [reflexivity|]. by apply checkFields_same_form.
  - by rewrite !validateContext_non_struct.
Qed.

Lemma again_pure {A} (m : M A) n w a :
  m w = Returned a w -> again n m w = Returned a w.
Proof.
  intros Hm. induction n as [|n IH]; [exact Hm|].
  cbn [again]. by rewrite (bind_returned _ _ _ _ _ Hm).
Qed.

Lemma again_panicked {A} (m : M A) n w msg :
  m w = Panicked msg -> again n m w = Panicked msg.
Proof.
  intros Hm. destruct n as [|n]; [exact Hm|].
  cbn [again]. by apply bind_panicked.
Qed.

Lemma again_validateContext resource n w :
  ParseErr w = None ->
  result (again n (validateContext resource) w) =
  result (validateContext resource w).
Proof.
  destruct (decide (ValueKind resource = Struct)) as [Hk|Hk].
  - revert w. induction n as [|n IH]; intros w Hparse; [reflexivity|].
    destruct (validateContext_frame resource w Hk) as (err & l & Hrun).
    rewrite (parsed_id w Hparse) in Hrun.
    cbn [again]. rewrite (bind_returned _ _ _ _ _ Hrun), IH by done.
    by apply validateContext_same_request.
  - intros _. pose proof (validateContext_non_struct resource w Hk) as Hp.
    by rewrite (again_panicked _ _ _ _ Hp), Hp.
Qed.

Lemma elem_of_flatten_leaf (fields : list (string * Value)) name v :
  (name, v) ∈ fields -> ValueKind v ≠ Struct ->
  name ∈ flatten (map (fun nf => fieldOf nf.1 nf.2) fields).
Proof.
  intros Hin Hk. induction fields as [|[name' v'] rest IH].
  - by apply elem_of_nil in Hin.
  - rewrite map_cons, flatten_cons. apply elem_of_app.
    apply elem_of_cons in Hin as [Heq|Hin]; [left | right; by apply IH].
    inversion Heq; subst name' v'. destruct v as [k sub]. cbn [fst snd].
    rewrite flattenField_fieldOf. cbn [ValueKind] in Hk.
    destruct (decide (k = Struct)); [done | apply list_elem_of_singleton; done].
Qed.

Lemma flatten_app (s1 s2 : Schema) : flatten (s1 ++ s2) = flatten s1 ++ flatten s2.
Proof. unfold flatten. by rewrite map_app, concat_app. Qed.

(** ** Schema introspection *)

(** C6. For every schema tree, [getResourceFields] on the struct declaring it
    returns the depth-first sequence of leaf names: a leaf contributes its own
    name, a group its children's leaves, and declaration order is kept under
    concatenation.  A leaf C declared after a group holding leaves A and B
    gives exactly A, B, C, of length 3. *)
Theorem getResourceFields_depth_first :
  (forall (schema : Schema) w,
     getResourceFields (structOf schema) w = Returned (flatten schema) w) /\
  (forall name, flatten [Leaf name] = [name]) /\
  (forall name children, flatten [Group name children] = flatten children) /\
  (forall s1 s2 : Schema, flatten (s1 ++ s2) = flatten s1 ++ flatten s2) /\
  (forall w,
     getResourceFields (structOf [Group "G" [Leaf "A"; Leaf "B"]; Leaf "C"]) w =
     Returned ["A"; "B"; "C"] w) /\
  length (flatten [Group "G" [Leaf "A"; Leaf "B"]; Leaf "C"]) = 3%nat.
Proof.
  assert (Hall : forall (schema : Schema) w,
             getResourceFields (structOf schema) w = Returned (flatten schema) w).
  { intros schema w. rewrite getResourceFields_flatten by reflexivity.
    by rewrite schemaOf_structOf. }
  split_and!.
  - exact Hall.
  - reflexivity.
  - intros name children. unfold flatten. cbn [map concat flattenField].
    by rewrite app_nil_r.
  - apply flatten_app.
  - intros w. apply Hall.
  - reflexivity.
Qed.

Example getResourceFields_createUserReq w :
  getResourceFields createUserReq w = Returned ["UserID"; "Password"; "Email"] w.
Proof. reflexivity. Qed.

Example getResourceFields_authUserReq w :
  getResourceFields authUserReq w = Returned ["UserID"; "Password"] w.
Proof. reflexivity. Qed.

(** C8, as the code has it.  [getResourceFields] has no failure outcome on a
    struct: a field of any kind other than [Struct] (a pointer, a map, a
    channel, even the invalid kind) is taken as a leaf and its name is
    emitted. *)
Theorem getResourceFields_other_kind_is_leaf
    (fields : list (string * Value)) (name : string) (v : Value) (w : World) :
  (name, v) ∈ fields ->
  ValueKind v ≠ Struct ->
  exists names,
    getResourceFields (mkValue Struct fields) w = Returned names w /\
    name ∈ names.
Proof.
  intros Hin Hk. eexists. split.
  - by apply getResourceFields_flatten.
  - by eapply elem_of_flatten_leaf.
Qed.

Lemma getResourceFields_other_kind_is_leaf_witness :
  exists names,
    getResourceFields
      (mkValue Struct [("A", plain String); ("P", plain Ptr); ("X", plain Invalid)])
      (request ∅ ∅ (fun _ => 0)) =
    Returned names (request ∅ ∅ (fun _ => 0)) /\
    "P" ∈ names.
Proof.
  apply (getResourceFields_other_kind_is_leaf _ "P" (plain Ptr)).
  - apply list_elem_of_In. simpl. tauto.
  - discriminate.
Defined.

(** C8, as stated, does not hold: no struct schema, whatever the kinds of its
    fields, makes [getResourceFields] do anything but return a list of names;
    one with a pointer field and a field of the invalid kind returns all
    three names. *)
Lemma getResourceFields_never_fails :
  ~ (exists fields w,
       forall names w',
         getResourceFields (mkValue Struct fields) w ≠ Returned names w') /\
  (forall w,
     getResourceFields
       (mkValue Struct [("A", plain String); ("P", plain Ptr); ("X", plain Invalid)]) w =
     Returned ["A"; "P"; "X"] w).
Proof.
  split; [|reflexivity].
  intros (fields & w & Hfail).
  by eapply Hfail, getResourceFields_flatten.
Qed.

(** C9, as the code has it.  What [getResourceFields] returns does not depend
    on the world it runs in nor on how often it ran before.  For a request
    whose form parses without error, the decision of [validateContext] is a
    function of that form and the schema, and is the same on every re-run. *)
Theorem flatten_validate_deterministic (resource : Value) (w : World) (n : nat) :
  ParseErr w = None ->
  (forall w', result (getResourceFields resource w') =
              result (getResourceFields resource w)) /\
  result (again n (getResourceFields resource) w) =
  result (getResourceFields resource w) /\
  (forall w', Form w' = Form w -> ParseErr w' = None ->
              result (validateContext resource w') =
              result (validateContext resource w)) /\
  result (again n (validateContext resource) w) =
  result (validateContext resource w).
Proof.
  intros Hparse. split_and!.
  - intros w'. destruct (decide (ValueKind resource = Struct)) as [Hk|Hk].
    + by rewrite !getResourceFields_flatten.
    + destruct resource as [k fields]. by rewrite !getResourceFields_non_struct.
  - destruct (decide (ValueKind resource = Struct)) as [Hk|Hk].
    + pose proof (getResourceFields_flatten resource w Hk) as Hr.
      by rewrite (again_pure _ _ _ _ Hr), Hr.
    + destruct resource as [k fields].
      pose proof (getResourceFields_non_struct k fields w Hk) as Hp.
      by rewrite (again_panicked _ _ _ _ Hp), Hp.
  - intros w' Hform Hparse'. apply validateContext_same_request; congruence.
  - by apply again_validateContext.
Qed.

Lemma flatten_validate_deterministic_witness :
  let w := request {[ "UserID" := ["bob"]; "Password" := ["secret"] ]} ∅ (fun _ => 0) in
  result (again 3 (getResourceFields authUserReq) w) =
  result (getResourceFields authUserReq w) /\
  result (again 3 (validateContext authUserReq) w) =
  result (validateContext authUserReq w).
Proof.
  intros w.
  destruct (flatten_validate_deterministic authUserReq w 3 eq_refl)
    as (_ & Hflat & _ & Hval).
  split; [exact Hflat | exact Hval].
Defined.

(** C9, as stated, does not hold.  Take a login request whose body fails to
    parse while both fields were read (from the query, say).  The first
    validation returns the parse error.  That error has then been handed out:
    a second validation on the same context finds the form parsed, counts two
    fields, finds both filled in, and accepts. *)
Lemma validateContext_rerun_after_parse_error :
  let e := OtherError "url" "invalid URL escape" in
  let w := mkWorld {[ "UserID" := ["bob"]; "Password" := ["secret"] ]} (Some e)
                   [] ∅ None ∅ (fun _ => 0) 0 [] in
  result (validateContext authUserReq w) = Some (Some e) /\
  result (validateContext authUserReq (after w (validateContext authUserReq w))) =
  Some None /\
  result (again 1 (validateContext authUserReq) w) = Some None.
Proof. intros e w. split_and!; reflexivity. Qed.

(** ** Request validation *)

(** C2. Whenever the number of fields in the request differs from the number
    of flattened schema fields, in either direction, [validateContext]
    rejects with [ReqLengthStructLengthNotEqual]: the check is an equality
    of counts, so extra fields are refused like missing ones. *)
Theorem validateContext_count_mismatch (resource : Value) (w : World) :
  ValueKind resource = Struct ->
  ParseErr w = None ->
  size (Form w) ≠ length (flatten (schemaOf resource)) ->
  validateContext resource w =
  Returned (Some ReqLengthStructLengthNotEqual)
    (logged w "validateRequest failed, reqForm length = %v and %v length = %v."
            [ArgInt (size (Form w)); ArgValueString resource;
             ArgInt (length (flatten (schemaOf resource)))]).
Proof.
  intros Hk Hparse Hcount. rewrite validateContext_struct by done.
  cbn zeta. rewrite Hparse. by destruct (decide _).
Qed.

Lemma validateContext_count_mismatch_witness :
  let w := request {[ "UserID" := ["bob"]; "Password" := ["x"]; "Extra" := ["y"] ]}
                   ∅ (fun _ => 0) in
  size (Form w) = 3%nat /\
  length (flatten (schemaOf authUserReq)) = 2%nat /\
  result (validateContext authUserReq w) = Some (Some ReqLengthStructLengthNotEqual).
Proof.
  intros w. split_and!; [reflexivity | reflexivity |].
  rewrite (validateContext_count_mismatch authUserReq w);
    [reflexivity | reflexivity | reflexivity | vm_compute; lia].
Defined.

Example validateContext_too_few_fields :
  result (validateContext authUserReq
            (request {[ "UserID" := ["bob"] ]} ∅ (fun _ => 0))) =
  Some (Some ReqLengthStructLengthNotEqual).
Proof. reflexivity. Qed.

(** C5, as the code has it.  Once the field counts agree, an expected field
    that is absent or whose value is the empty string makes
    [validateContext] reject with [ReqFieldsStructFieldsNotEqual]; the two
    cases give the same error and the same log line. *)
Theorem validateContext_missing_or_empty
    (resource : Value) (w : World) (name : string) :
  ValueKind resource = Struct ->
  ParseErr w = None ->
  size (Form w) = length (flatten (schemaOf resource)) ->
  name ∈ flatten (schemaOf resource) ->
  (Form w !! name = None \/ exists more, Form w !! name = Some ("" :: more)) ->
  validateContext resource w =
  Returned (Some ReqFieldsStructFieldsNotEqual)
           (logged w "Request was missing key:value pairs." []).
Proof.
  intros Hk Hparse Hcount Hin Hblank. rewrite validateContext_struct by done.
  cbn zeta. rewrite Hparse. destruct (decide _) as [|_]; [done|].
  apply checkFields_one_blank, Exists_exists. exists name. split; [done|].
  apply Get_blank. destruct Hblank as [?|?]; auto.
Qed.

Lemma validateContext_missing_or_empty_witness :
  let blank := request {[ "UserID" := ["bob"]; "Password" := [""] ]} ∅ (fun _ => 0) in
  let omitted := request {[ "UserID" := ["bob"]; "Extra" := ["y"] ]} ∅ (fun _ => 0) in
  result (validateContext authUserReq blank) = Some (Some ReqFieldsStructFieldsNotEqual) /\
  result (validateContext authUserReq omitted) = Some (Some ReqFieldsStructFieldsNotEqual).
Proof.
  intros blank omitted. split.
  - rewrite (validateContext_missing_or_empty authUserReq blank "Password");
      [reflexivity | reflexivity | reflexivity | reflexivity
      | apply list_elem_of_In; simpl; tauto
      | right; exists []; reflexivity].
  - rewrite (validateContext_missing_or_empty authUserReq omitted "Password");
      [reflexivity | reflexivity | reflexivity | reflexivity
      | apply list_elem_of_In; simpl; tauto
      | left; reflexivity].
Defined.

(** C5, as stated, does not hold: with [Password] omitted and nothing sent in
    its place, the request has one field where two are expected, and the
    count check answers first, with [ReqLengthStructLengthNotEqual]. *)
Lemma validateContext_missing_field_counted_first :
  let w := request {[ "UserID" := ["bob"] ]} ∅ (fun _ => 0) in
  "Password" ∈ flatten (schemaOf authUserReq) /\
  Form w !! "Password" = None /\
  validateContext authUserReq w =
  Returned (Some ReqLengthStructLengthNotEqual)
    (logged w "validateRequest failed, reqForm length = %v and %v length = %v."
            [ArgInt 1; ArgValueString authUserReq; ArgInt 2]) /\
  ReqLengthStructLengthNotEqual ≠ ReqFieldsStructFieldsNotEqual.
Proof.
  intros w. split_and!.
  - apply list_elem_of_In. simpl. tauto.
  - reflexivity.
  - reflexivity.
  - discriminate.
Qed.

(** C7. When the field count equals the flattened schema's and every expected
    field is present with a non-empty value, [validateContext] returns [nil]
    and leaves the whole world, the request's values included, exactly as it
    was: nothing is transformed, and nothing is logged. *)
Theorem validateContext_ok (resource : Value) (w : World) :
  ValueKind resource = Struct ->
  ParseErr w = None ->
  size (Form w) = length (flatten (schemaOf resource)) ->
  (forall name, name ∈ flatten (schemaOf resource) ->
     exists v more, Form w !! name = Some (v :: more) /\ v ≠ "") ->
  validateContext resource w = Returned None w.
Proof.
  intros Hk Hparse Hcount Hall. rewrite validateContext_struct by done.
  cbn zeta. rewrite Hparse. destruct (decide _) as [|_]; [done|].
  apply checkFields_all_present, Forall_forall. intros name Hin.
  destruct (Hall name Hin) as (v & more & Hv & Hne).
  unfold Get. by rewrite Hv.
Qed.

Lemma validateContext_ok_witness :
  let w := request {[ "UserID" := ["bob"]; "Password" := ["secret"] ]} ∅ (fun _ => 0) in
  validateContext authUserReq w = Returned None w /\
  Form w = {[ "UserID" := ["bob"]; "Password" := ["secret"] ]}.
Proof.
  intros w. split; [|reflexivity].
  apply (validateContext_ok authUserReq w); [reflexivity | reflexivity | reflexivity |].
  intros name Hin. apply list_elem_of_In in Hin. simpl in Hin.
  destruct Hin as [<-|[<-|[]]].
  - exists "bob", []. split; [reflexivity | discriminate].
  - exists "secret", []. split; [reflexivity | discriminate].
Defined.

(** ** Token issuance *)

Lemma claims_as_assigned (sub : string) (iat exp : Z) :
  <["iat" := ClaimInt64 iat]>
    (<["exp" := ClaimInt64 exp]>
       (<["aud" := ClaimString "Moment-Service"]>
          (<["sub" := ClaimString sub]>
             (<["iss" := ClaimString "Auth-Service"]> ∅)))) =
  claimSet sub iat exp.
Proof.
  reflexivity.
Qed.

Lemma claimSet_dom (sub : string) (iat exp : Z) :
  dom (claimSet sub iat exp) = ({[ "iss"; "sub"; "aud"; "iat"; "exp" ]} : gset string).
Proof. unfold claimSet. rewrite !dom_insert_L, dom_singleton_L. set_solver. Qed.

Lemma ReadFile_run path w :
  ReadFile path w =
  Returned match Files w !! path with
           | Some p => (p, None)
           | None => ([], Some (noSuchFile path))
           end
           (set_Trace (Trace w ++ [CallReadFile path]) w).
Proof. reflexivity. Qed.

Lemma Now_run w :
  Now w = Returned (Clock w (Ticks w)) (set_Ticks (S (Ticks w)) w).
Proof. reflexivity. Qed.

Section HandlerProperties.

Context {PrivateKey : Type}.
Variable user_CreateUser : list Event -> User -> option error.
Variable user_AuthUser : list Event -> AuthCredentials -> option error.
Variable ParseRSAPrivateKeyFromPEM : list Byte.byte -> PrivateKey + error.
Variable SignedString : Token -> PrivateKey -> string + error.

(** One run of [generateJwt], step by step: the key file is read, the clock
    is read twice (first for [exp], then for [iat]), the key is parsed and
    the token signed. *)
Lemma generateJwt_run UserID w :
  generateJwt ParseRSAPrivateKeyFromPEM SignedString UserID w =
  let w1 := set_Trace (Trace w ++ [CallReadFile keyPath]) w in
  match Files w !! keyPath with
  | None => Returned ("", Some (noSuchFile keyPath)) w1
  | Some p =>
      let w2 := set_Ticks (S (S (Ticks w))) w1 in
      let t := mkToken SigningMethodRS256
                 (MapClaims (claimSet UserID (Clock w (S (Ticks w)))
                               (Clock w (Ticks w) + 604800))) in
      match ParseRSAPrivateKeyFromPEM p with
      | inr e => Returned ("", Some e) w2
      | inl key => Returned (signed (SignedString t key)) w2
      end
  end.
Proof.
  unfold generateJwt.
  rewrite (bind_returned _ _ _ _ _ (ReadFile_run keyPath w)).
  destruct (Files w !! keyPath) as [p|]; cbn beta iota zeta; [|reflexivity].
  cbn [jwt_New TokenClaims Method].
  rewrite (bind_returned _ _ _ _ _ (Now_run _)).
  rewrite (bind_returned _ _ _ _ _ (Now_run _)).
  rewrite claims_as_assigned.
  destruct (ParseRSAPrivateKeyFromPEM p) as [key|e]; [|reflexivity].
  by destruct (SignedString _ key).
Qed.

Lemma checkFields_nil_inv fields w w' :
  checkFields fields w = Returned None w' ->
  w' = w /\ Forall (fun v => Get (Form w) v ≠ "") fields.
Proof.
  induction fields as [|v rest IH].
  - intros [= <-]. by split.
  - rewrite checkFields_cons.
    destruct (decide (Get (Form w) v = "")) as [|Hv]; [discriminate|].
    intros Hrest. destruct (IH Hrest) as [-> Hall]. split; [done|].
    by constructor.
Qed.

Lemma validateContext_nil_inv resource w w' :
  ValueKind resource = Struct ->
  validateContext resource w = Returned None w' ->
  w' = w /\ Forall (fun v => Get (Form w) v ≠ "") (flatten (schemaOf resource)).
Proof.
  intros Hk. rewrite validateContext_struct by done. cbn zeta.
  destruct (ParseErr w); [discriminate|].
  destruct (decide _); [discriminate|]. apply checkFields_nil_inv.
Qed.

(** One run of [createUser], from the outcome of the validation on. *)
Lemma createUser_run w :
  createUser user_CreateUser w =
  match validateContext createUserReq w with
  | Panicked msg => Panicked msg
  | Returned (Some e) w1 =>
      Returned tt (set_Status (Some StatusBadRequest)
                     (logged w1 "main.ValidateContext Failed with err: %v" [ArgError e]))
  | Returned None w1 =>
      let u := mkUser (mkAuthCredentials (Get (Form w1) "UserID")
                                         (Get (Form w1) "Password"))
                      (Get (Form w1) "Email") in
      let w2 := set_Trace (Trace w1 ++ [CallCreateUser u]) w1 in
      match user_CreateUser (Trace w1) u with
      | None => Returned tt (set_Status (Some StatusCreated) w2)
      | Some e =>
          Returned tt
            (set_Status
               (Some match e with
                     | UserAlreadyExists => StatusConflict
                     | _ => StatusInternalServerError
                     end)
               (logged w2 "user.CreateUser Failed with error: %v" [ArgError e]))
      end
  end.
Proof.
  unfold createUser. cbn zeta. unfold mbind at 1. unfold M_bind at 1.
  destruct (validateContext createUserReq w) as [[e|] w1|msg]; try reflexivity.
  cbv beta iota delta [mbind M_bind mret M_ret get modify FormValue CreateUser].
  destruct (user_CreateUser (Trace w1) _) as [[]|]; reflexivity.
Qed.

(** One run of [authUser], from the outcome of the validation on. *)
Lemma authUser_run w :
  authUser user_AuthUser ParseRSAPrivateKeyFromPEM SignedString w =
  match validateContext authUserReq w with
  | Panicked msg => Panicked msg
  | Returned (Some e) w1 =>
      Returned tt (set_Status (Some StatusBadRequest)
                     (logged w1 "main.ValidateContext Failed with err: %v" [ArgError e]))
  | Returned None w1 =>
      let aC := mkAuthCredentials (Get (Form w1) "UserID")
                                  (Get (Form w1) "Password") in
      let w2 := set_Trace (Trace w1 ++ [CallAuthUser aC]) w1 in
      match user_AuthUser (Trace w1) aC with
      | Some e =>
          Returned tt (set_Status (Some StatusUnauthorized)
                         (logged w2 "user.AuthUser Failed with error: %v" [ArgError e]))
      | None =>
          match generateJwt ParseRSAPrivateKeyFromPEM SignedString (Get (Form w1) "UserID") w2 with
          | Panicked msg => Panicked msg
          | Returned (_, Some e) w3 =>
              Returned tt (set_Status (Some StatusInternalServerError)
                             (logged w3 "%v" [ArgError e]))
          | Returned (token, None) w3 =>
              Returned tt (set_Status (Some StatusOK)
                             (set_Header (<["jwt" := token]> (Header w3)) w3))
          end
      end
  end.
Proof.
  unfold authUser. cbn zeta. unfold mbind at 1. unfold M_bind at 1.
  destruct (validateContext authUserReq w) as [[e|] w1|msg]; try reflexivity.
  cbv beta iota delta [mbind M_bind mret M_ret get modify FormValue AuthUser].
  destruct (user_AuthUser (Trace w1) _) as [e|]; [reflexivity|].
  cbn [Form set_Trace].
  destruct (generateJwt _ _ _ _) as [[token [e|]] w3|msg]; reflexivity.
Qed.

(** When both clock readings of a run fall in the same second [now], the
    signed claim set is the specification's: the five claims, with
    [exp = iat + 604800]. *)
Lemma generateJwt_same_second UserID w now p key :
  Files w !! keyPath = Some p ->
  ParseRSAPrivateKeyFromPEM p = inl key ->
  Clock w (Ticks w) = now ->
  Clock w (S (Ticks w)) = now ->
  result (generateJwt ParseRSAPrivateKeyFromPEM SignedString UserID w) =
  Some (signed (SignedString
                  (mkToken SigningMethodRS256
                     (MapClaims (claimSet UserID now (now + 604800)))) key)).
Proof.
  intros Hfile Hkey Hexp Hiat. rewrite generateJwt_run. cbn zeta. by rewrite Hfile, Hkey, Hexp, Hiat.
Qed.

Lemma generateJwt_returns UserID w :
  exists r w',
    generateJwt ParseRSAPrivateKeyFromPEM SignedString UserID w = Returned r w' /\
    Trace w' = Trace w ++ [CallReadFile keyPath].
Proof.
  rewrite generateJwt_run. cbn zeta.
  destruct (Files w !! keyPath) as [p|]; [|by eexists _, _].
  destruct (ParseRSAPrivateKeyFromPEM p); by eexists _, _.
Qed.

(** C4, as the code has it.  Every call of [generateJwt] reads the key file
    from its fixed path, once, and keeps nothing for the next call; whether
    the call fails for want of a key depends on the file system at the time
    of that call alone: it fails when the file is absent or does not parse,
    and goes on to sign when it is there and parses. *)
Theorem generateJwt_loads_key_on_every_call (UserID : string) (w : World) :
  exists r w',
    generateJwt ParseRSAPrivateKeyFromPEM SignedString UserID w = Returned r w' /\
    Trace w' = Trace w ++ [CallReadFile keyPath] /\
    (Files w !! keyPath = None -> r = ("", Some (noSuchFile keyPath))) /\
    (forall p e, Files w !! keyPath = Some p ->
                 ParseRSAPrivateKeyFromPEM p = inr e -> r = ("", Some e)) /\
    (forall p key, Files w !! keyPath = Some p ->
                   ParseRSAPrivateKeyFromPEM p = inl key ->
                   exists t, r = signed (SignedString t key)).
Proof.
  rewrite generateJwt_run. cbn zeta.
  destruct (Files w !! keyPath) as [p|] eqn:Hfile.
  - destruct (ParseRSAPrivateKeyFromPEM p) as [key|e] eqn:Hkey;
      eexists _, _; (split; [reflexivity|]); (split; [reflexivity|]);
      split_and!; try discriminate.
    + intros p' e [= <-]. congruence.
    + intros p' key' [= <-] Hkey'. rewrite Hkey in Hkey'.
      injection Hkey' as <-. eauto.
    + intros p' e' [= <-] Hkey'. congruence.
    + intros p' key' [= <-]. congruence.
  - eexists _, _. split; [reflexivity|]. split; [reflexivity|].
    split_and!; [done | discriminate | discriminate].
Qed.

(** C10. Whenever a handler calls package [user], every field it passes is
    a non-empty string, and when validation fails the handler makes no call
    at all.  Both handlers always return. *)
Theorem gateway_called_with_non_empty_fields (w : World) :
  (exists w' calls,
     createUser user_CreateUser w = Returned tt w' /\
     Trace w' = Trace w ++ calls /\
     Forall nonEmptyCall calls /\
     (result (validateContext createUserReq w) ≠ Some None -> calls = []) /\
     (result (validateContext createUserReq w) = Some None ->
      calls = [CallCreateUser
                 (mkUser (mkAuthCredentials (Get (Form w) "UserID")
                                            (Get (Form w) "Password"))
                         (Get (Form w) "Email"))])) /\
  (exists w' calls,
     authUser user_AuthUser ParseRSAPrivateKeyFromPEM SignedString w =
     Returned tt w' /\
     Trace w' = Trace w ++ calls /\
     Forall nonEmptyCall calls /\
     (result (validateContext authUserReq w) ≠ Some None -> calls = []) /\
     (result (validateContext authUserReq w) = Some None ->
      filter (fun ev => isUserCall ev = true) calls =
      [CallAuthUser (mkAuthCredentials (Get (Form w) "UserID")
                                       (Get (Form w) "Password"))])).
Proof.
  split.
  - rewrite createUser_run.
    destruct (validateContext_frame createUserReq w eq_refl) as (err & l & Hv).
    rewrite Hv. destruct err as [e|].
    + eexists _, []. split; [reflexivity|]. split; [by rewrite app_nil_r|].
      split; [constructor|]. split; [done | discriminate].
    + apply validateContext_nil_inv in Hv as [-> Hall]; [|reflexivity].
      apply Forall_cons in Hall as [Hu Hall].
      apply Forall_cons in Hall as [Hp Hall].
      apply Forall_cons in Hall as [He _].
      cbn zeta.
      destruct (user_CreateUser _ _) as [e|]; eexists _, [_];
        (split; [reflexivity|]); (split; [reflexivity|]);
        (split; [by repeat constructor|]); (split; [done | reflexivity]).
  - rewrite authUser_run.
    destruct (validateContext_frame authUserReq w eq_refl) as (err & l & Hv).
    rewrite Hv. destruct err as [e|].
    + eexists _, []. split; [reflexivity|]. split; [by rewrite app_nil_r|].
      split; [constructor|]. split; [done | discriminate].
    + apply validateContext_nil_inv in Hv as [-> Hall]; [|reflexivity].
      apply Forall_cons in Hall as [Hu Hall].
      apply Forall_cons in Hall as [Hp _].
      cbn zeta. destruct (user_AuthUser _ _) as [e|].
      * eexists _, [_]. split; [reflexivity|]. split; [reflexivity|].
        split; [by repeat constructor|]. split; [done | reflexivity].
      * destruct (generateJwt_returns
                    (Get (Form w) "UserID")
                    (set_Trace
                       (Trace w ++
                        [CallAuthUser
                           (mkAuthCredentials (Get (Form w) "UserID")
                                              (Get (Form w) "Password"))]) w))
          as (r & w3 & Hrun & Htrace).
        rewrite Hrun.
        cbn [Trace set_Trace] in Htrace.
        destruct r as [token [e|]]; eexists _, [_; _];
          (split; [reflexivity|]);
          (split; [cbn; rewrite Htrace; by rewrite <- app_assoc|]);
          (split; [by repeat constructor|]); (split; [done | reflexivity]).
Qed.

End HandlerProperties.

(** C1, on the code.  [generateJwt] reads the clock once for [exp] and once
    more for [iat].  With the readings 1000 and 1001 (the second starts
    between the two reads) the signed claim set for subject bob has
    [exp = 605800] and [iat = 1001]: the expiry is 604799 seconds after the
    issue time, not 604800. *)
Theorem generateJwt_expiry_from_first_reading
    (sign : Token -> list Byte.byte -> string + error) :
  let w := request ∅ someKeyFile (fun k => 1000 + Z.of_nat k) in
  result (generateJwt stubParsePEM sign "bob" w) =
  Some (signed (sign (mkToken SigningMethodRS256
                        (MapClaims (claimSet "bob" 1001 605800)))
                     [Byte.x2d; Byte.x2d])) /\
  605800 ≠ 1001 + 604800.
Proof.
  intros w. split; [|lia].
  rewrite generateJwt_run. reflexivity.
Qed.

(** C3, on the code.  The create path tells [UserAlreadyExists] (409) from
    every other error of the gateway (500); the login path answers 401 to
    every error [user.AuthUser] returns, an infrastructure failure
    included. *)
Theorem gateway_error_mapping (e : error) (origin msg : string) :
  let create := request {[ "UserID" := ["bob"]; "Password" := ["secret"];
                           "Email" := ["bob@example.org"] ]} ∅ (fun _ => 0) in
  let login := request {[ "UserID" := ["bob"]; "Password" := ["secret"] ]}
                       someKeyFile (fun _ => 0) in
  Status (after create (createUser (fun _ _ => Some UserAlreadyExists) create)) =
  Some StatusConflict /\
  Status (after create (createUser (fun _ _ => Some (OtherError origin msg)) create)) =
  Some StatusInternalServerError /\
  Status (after login (authUser (fun _ _ => Some e)
                         stubParsePEM stubSignedString login)) =
  Some StatusUnauthorized /\
  Status (after login (authUser (fun _ _ => Some (OtherError origin msg))
                         stubParsePEM stubSignedString login)) =
  Some StatusUnauthorized /\
  Status (after login (authUser (fun _ _ => None)
                         stubParsePEM stubSignedString login)) =
  Some StatusOK.
Proof. intros create login. split_and!; reflexivity. Qed.

(** C4, as stated, does not hold.  After a first call that issued a token, a
    second call reads the key file again, and a call made after the file was
    removed fails on the missing key. *)
Lemma generateJwt_key_is_read_per_call :
  let issue := generateJwt stubParsePEM stubSignedString "bob" in
  let w := request ∅ someKeyFile (fun _ => 1000) in
  let w1 := after w (issue w) in
  result (issue w) = Some ("header.claims.signature", None) /\
  Trace w1 = [CallReadFile keyPath] /\
  Trace (after w1 (issue w1)) = [CallReadFile keyPath; CallReadFile keyPath] /\
  result (issue (set_Files ∅ w1)) = Some ("", Some (noSuchFile keyPath)).
Proof. intros issue w w1. split_and!; reflexivity. Qed.

(** ** The handlers on concrete requests *)

Example createUser_created :
  let w := request {[ "UserID" := ["bob"]; "Password" := ["secret"];
                      "Email" := ["bob@example.org"] ]} ∅ (fun _ => 0) in
  let w' := after w (createUser (fun _ _ => None) w) in
  Status w' = Some StatusCreated /\
  Trace w' = [CallCreateUser (mkUser (mkAuthCredentials "bob" "secret")
                                     "bob@example.org")] /\
  Logger w' = [].
Proof. intros w w'. split_and!; reflexivity. Qed.

Example createUser_blank_email_is_bad_request :
  let w := request {[ "UserID" := ["bob"]; "Password" := ["secret"];
                      "Email" := [""] ]} ∅ (fun _ => 0) in
  let w' := after w (createUser (fun _ _ => None) w) in
  Status w' = Some StatusBadRequest /\ Trace w' = [].
Proof. intros w w'. split; reflexivity. Qed.

Example authUser_issues_token :
  let w := request {[ "UserID" := ["bob"]; "Password" := ["secret"] ]}
                   someKeyFile (fun _ => 1000) in
  let w' := after w (authUser (fun _ _ => None) stubParsePEM stubSignedString w) in
  Status w' = Some StatusOK /\
  Header w' !! "jwt" = Some "header.claims.signature" /\
  Trace w' = [CallAuthUser (mkAuthCredentials "bob" "secret"); CallReadFile keyPath].
Proof. intros w w'. split_and!; reflexivity. Qed.

Example authUser_without_key_is_server_error :
  let w := request {[ "UserID" := ["bob"]; "Password" := ["secret"] ]}
                   ∅ (fun _ => 1000) in
  let w' := after w (authUser (fun _ _ => None) stubParsePEM stubSignedString w) in
  Status w' = Some StatusInternalServerError /\ Header w' !! "jwt" = None.
Proof. intros w w'. split; reflexivity. Qed.

(** A token issued within one second carries the five claims and
    [exp = iat + 604800]. *)
Example generateJwt_within_one_second
    (sign : Token -> list Byte.byte -> string + error) (now : Z) :
  result (generateJwt stubParsePEM sign "bob" (request ∅ someKeyFile (fun _ => now))) =
  Some (signed (sign (mkToken SigningMethodRS256
                        (MapClaims (claimSet "bob" now (now + 604800))))
                     [Byte.x2d; Byte.x2d])).
Proof. by apply (generateJwt_same_second _ _ _ _ _ [Byte.x2d; Byte.x2d]). Qed.

(** [StructNotRecognized] is no outcome of a validation either. *)
Lemma validateContext_never_StructNotRecognized resource w :
  ParseErr w = None ->
  result (validateContext resource w) ≠ Some (Some StructNotRecognized).
Proof.
  intros Hparse.
  destruct (decide (ValueKind resource = Struct)) as [Hk|Hk].
  - rewrite validateContext_struct by done. cbn zeta. rewrite Hparse.
    destruct (decide _); [discriminate|].
    generalize (flatten (schemaOf resource)). intros fields.
    induction fields as [|v rest IH]; [discriminate|].
    rewrite checkFields_cons. by destruct (decide _).
  - by rewrite validateContext_non_struct.
Qed.

(** * Further properties of the validator *)

Lemma Get_present (values : gmap string (list string)) key :
  Get values key ≠ "" <->
  exists v more, values !! key = Some (v :: more) /\ v ≠ "".
Proof.
  unfold Get. destruct (values !! key) as [[|v more]|]; split.
  - done.
  - intros (v & more & [=] & _).
  - intros Hv. by exists v, more.
  - intros (v' & more' & [= <- <-] & Hne). done.
  - done.
  - intros (v & more & [=] & _).
Qed.

Lemma checkFields_accepts_iff fields w :
  result (checkFields fields w) = Some None <->
  Forall (fun name => Get (Form w) name ≠ "") fields.
Proof.
  split.
  - destruct (checkFields fields w) as [[e|] w'|msg] eqn:Hrun; try discriminate.
    intros _. by apply checkFields_nil_inv in Hrun as [_ Hall].
  - intros Hall. by rewrite checkFields_all_present.
Qed.

Lemma validateContext_accepts_first_values resource w :
  ValueKind resource = Struct ->
  result (validateContext resource w) = Some None <->
  ParseErr w = None /\
  size (Form w) = length (flatten (schemaOf resource)) /\
  Forall (fun name => Get (Form w) name ≠ "") (flatten (schemaOf resource)).
Proof.
  intros Hk. rewrite validateContext_struct by done. cbn zeta.
  destruct (ParseErr w) as [e|].
  { split; [discriminate | by intros [? _]]. }
  destruct (decide (size (Form w) ≠ length (flatten (schemaOf resource))))
    as [Hne|Heq].
  { split; [discriminate | by intros (_ & ? & _)]. }
  apply dec_stable in Heq. rewrite checkFields_accepts_iff.
  split; [by intros Hall | by intros (_ & _ & Hall)].
Qed.

(** X1. [validateContext] accepts exactly the requests whose form parsed,
    whose number of keys is the number of flattened fields, and in which
    every flattened field has a non-empty first value. *)
Theorem validateContext_accepts_iff (resource : Value) (w : World) :
  ValueKind resource = Struct ->
  result (validateContext resource w) = Some None <->
  ParseErr w = None /\
  size (Form w) = length (flatten (schemaOf resource)) /\
  (forall name, name ∈ flatten (schemaOf resource) ->
     exists v more, Form w !! name = Some (v :: more) /\ v ≠ "").
Proof.
  intros Hk. rewrite validateContext_accepts_first_values by done.
  rewrite Forall_forall. split.
  - intros (Hparse & Hsize & Hall). split_and!; [done | done |].
    intros name Hin. by apply Get_present, Hall.
  - intros (Hparse & Hsize & Hall). split_and!; [done | done |].
    intros name Hin. by apply Get_present, Hall.
Qed.

Lemma validateContext_accepts_iff_witness :
  let w := request {[ "UserID" := ["bob"; "eve"]; "Password" := ["secret"];
                      "Email" := ["bob@example.org"] ]} ∅ (fun _ => 0) in
  result (validateContext createUserReq w) = Some None.
Proof.
  intros w. apply (validateContext_accepts_iff createUserReq w eq_refl).
  split_and!; [reflexivity | reflexivity |].
  intros name Hin. apply list_elem_of_In in Hin. simpl in Hin.
  destruct Hin as [<-|[<-|[<-|[]]]].
  - exists "bob", ["eve"]. split; [reflexivity | discriminate].
  - exists "secret", []. split; [reflexivity | discriminate].
  - exists "bob@example.org", []. split; [reflexivity | discriminate].
Defined.

(** X2. A form that failed to parse is rejected with the parser's own error,
    before any count or field is looked at; one line goes to the logger, and
    the response, the file system, the clock and the trace of outside calls
    stay as they were. *)
Theorem validateContext_parse_error (resource : Value) (w : World) (e : error) :
  ValueKind resource = Struct ->
  ParseErr w = Some e ->
  exists w',
    validateContext resource w = Returned (Some e) w' /\
    Logger w' =
    Logger w ++ [("validateRequest Failed with error: %v", [ArgError e])] /\
    Header w' = Header w /\ Status w' = Status w /\
    Files w' = Files w /\ Ticks w' = Ticks w /\ Trace w' = Trace w.
Proof.
  intros Hk Hparse. rewrite validateContext_struct by done.
  cbn zeta. rewrite Hparse. eexists. split; [reflexivity|]. by split_and!.
Qed.

Lemma validateContext_parse_error_witness :
  let e := OtherError "url" "invalid URL escape" in
  let w := mkWorld {[ "UserID" := ["bob"]; "Password" := ["secret"] ]} (Some e)
                   [] ∅ None ∅ (fun _ => 0) 0 [] in
  exists w',
    validateContext authUserReq w = Returned (Some e) w' /\
    Logger w' = [("validateRequest Failed with error: %v", [ArgError e])].
Proof.
  intros e w.
  destruct (validateContext_parse_error authUserReq w e eq_refl eq_refl)
    as (w' & Hrun & Hlog & _).
  exists w'. split; [exact Hrun | exact Hlog].
Defined.

(** X3. A validation ends in one of four ways: accepted, the parse error, or
    one of the two sentinels.  When it accepts, the world is as it was; when
    it rejects, exactly one line goes to the logger.  In either case the
    response, the file system, the clock and the trace of outside calls stay
    as they were. *)
Theorem validateContext_outcomes (resource : Value) (w : World) :
  ValueKind resource = Struct ->
  exists err w',
    validateContext resource w = Returned err w' /\
    (err = None \/ err = ParseErr w \/
     err = Some ReqLengthStructLengthNotEqual \/
     err = Some ReqFieldsStructFieldsNotEqual) /\
    (err = None -> w' = w) /\
    (err ≠ None -> exists format args,
                     Logger w' = Logger w ++ [(format, args)]) /\
    Header w' = Header w /\ Status w' = Status w /\
    Files w' = Files w /\ Ticks w' = Ticks w /\ Trace w' = Trace w.
Proof.
  intros Hk. rewrite validateContext_struct by done. cbn zeta.
  destruct (ParseErr w) as [e|] eqn:Hparse.
  { eexists _, _. split; [reflexivity|].
    split_and!; [auto | done | eauto | done..]. }
  destruct (decide _) as [Hne|_].
  { eexists _, _. split; [reflexivity|].
    split_and!; [auto | done | eauto | done..]. }
  generalize (flatten (schemaOf resource)). intros fields.
  destruct (decide (Forall (fun v => Get (Form w) v ≠ "") fields)) as [Hall|Hex].
  - rewrite checkFields_all_present by done.
    eexists _, _. split; [reflexivity|]. split_and!; [auto | done..].
  - apply not_Forall_Exists in Hex; [|apply _].
    rewrite checkFields_one_blank.
    + eexists _, _. split; [reflexivity|].
      split_and!; [auto | done | eauto | done..].
    + eapply Exists_impl; [exact Hex|]. intros v Hv. cbn in Hv.
      by apply dec_stable in Hv.
Qed.

Lemma validateContext_outcomes_witness :
  exists err w',
    validateContext authUserReq
      (request {[ "UserID" := ["bob"]; "Password" := [""] ]} ∅ (fun _ => 0)) =
    Returned err w' /\ err ≠ None.
Proof.
  destruct (validateContext_outcomes authUserReq
              (request {[ "UserID" := ["bob"]; "Password" := [""] ]} ∅ (fun _ => 0))
              eq_refl) as (err & w' & Hrun & _).
  exists err, w'. split; [exact Hrun|].
  intros ->.
  assert (Hres : result (validateContext authUserReq
                   (request {[ "UserID" := ["bob"]; "Password" := [""] ]} ∅
                            (fun _ => 0))) =
                 Some (Some ReqFieldsStructFieldsNotEqual)) by reflexivity.
  rewrite Hrun in Hres. cbn [result] in Hres. congruence.
Defined.

(** X4. When no leaf name is declared twice, an accepted request carries
    exactly the flattened fields as its keys: no key beyond the schema gets
    past the validator. *)
Theorem validateContext_accepts_exact_keys (resource : Value) (w : World) :
  ValueKind resource = Struct ->
  NoDup (flatten (schemaOf resource)) ->
  result (validateContext resource w) = Some None ->
  dom (Form w) = (list_to_set (flatten (schemaOf resource)) : gset string).
Proof.
  intros Hk Hnodup Hok.
  apply validateContext_accepts_first_values in Hok as (_ & Hsize & Hall);
    [|done].
  rewrite Forall_forall in Hall.
  symmetry. apply set_subseteq_size_eq.
  - intros name Hin. apply elem_of_list_to_set in Hin.
    destruct (proj1 (Get_present _ _) (Hall name Hin)) as (v & more & Hv & _).
    apply elem_of_dom. by eexists.
  - rewrite size_dom, Hsize, size_list_to_set by done. done.
Qed.

Lemma validateContext_accepts_exact_keys_witness :
  let w := request {[ "UserID" := ["bob"]; "Password" := ["secret"];
                      "Email" := ["bob@example.org"] ]} ∅ (fun _ => 0) in
  dom (Form w) = ({[ "UserID"; "Password"; "Email" ]} : gset string).
Proof.
  intros w.
  rewrite (validateContext_accepts_exact_keys createUserReq w eq_refl).
  - cbn. set_solver.
  - apply (bool_decide_unpack _). reflexivity.
  - reflexivity.
Defined.

(** The hypothesis on repeated names is needed: a struct declaring [A] twice
    accepts a request that sends [A] once and any other key besides. *)
Example validateContext_repeated_name_admits_stranger :
  let resource := mkValue Struct [("G", mkValue Struct [("A", plain String)]);
                                  ("A", plain String)] in
  let w := request {[ "A" := ["x"]; "Role" := ["admin"] ]} ∅ (fun _ => 0) in
  validateContext resource w = Returned None w.
Proof. reflexivity. Qed.

Lemma flatten_schemaOf_app k1 k2 (fs1 fs2 : list (string * Value)) :
  flatten (schemaOf (mkValue k1 (fs1 ++ fs2))) =
  flatten (schemaOf (mkValue k2 fs1)) ++ flatten (schemaOf (mkValue k2 fs2)).
Proof. unfold schemaOf. cbn [ValueFields]. by rewrite map_app, flatten_app. Qed.

(** X5. A nested struct is transparent: flattening a struct gives the same
    names whether a group of fields sits in a nested (or embedded) struct or
    is declared in its place, and the nested struct's own name plays no
    part. *)
Theorem getResourceFields_inlines_nested_struct
    (before inner after_ : list (string * Value)) (name : string) (w : World) :
  getResourceFields
    (mkValue Struct (before ++ (name, mkValue Struct inner) :: after_)) w =
  getResourceFields (mkValue Struct (before ++ inner ++ after_)) w.
Proof.
  rewrite !getResourceFields_flatten by reflexivity. f_equal.
  rewrite !(flatten_schemaOf_app Struct Struct).
  change ((name, mkValue Struct inner) :: after_)
    with ([(name, mkValue Struct inner)] ++ after_).
  rewrite (flatten_schemaOf_app Struct Struct). f_equal. f_equal.
  unfold schemaOf at 1. cbn [ValueFields map fst snd].
  rewrite flatten_cons, flattenField_fieldOf. cbn [decide_rel].
  unfold flatten at 2. cbn [map concat]. by rewrite app_nil_r.
Qed.

Lemma first_values_checkFields fields w1 w2 :
  (forall name, name ∈ fields -> Get (Form w1) name = Get (Form w2) name) ->
  result (checkFields fields w1) = result (checkFields fields w2).
Proof.
  induction fields as [|v rest IH]; intros Hsame; [reflexivity|].
  rewrite !checkFields_cons, (Hsame v) by apply list_elem_of_here.
  destruct (decide (Get (Form w2) v = "")); [reflexivity|].
  apply IH. intros name Hin. apply Hsame. by apply list_elem_of_further.
Qed.

(** X6. The decision looks at the number of keys and at the first value of
    each flattened field, and at nothing else in the form: further values
    under a key, and which unexpected keys are present, do not change it. *)
Theorem validateContext_first_values_decide
    (resource : Value) (w1 w2 : World) :
  ParseErr w1 = ParseErr w2 ->
  size (Form w1) = size (Form w2) ->
  (forall name, name ∈ flatten (schemaOf resource) ->
     Get (Form w1) name = Get (Form w2) name) ->
  result (validateContext resource w1) = result (validateContext resource w2).
Proof.
  intros Hparse Hsize Hsame.
  destruct (decide (ValueKind resource = Struct)) as [Hk|Hk].
  - rewrite !validateContext_struct by done. cbn zeta. rewrite Hparse, Hsize.
    destruct (ParseErr w2); [reflexivity|].
    destruct (decide _); [reflexivity|]. by apply first_values_checkFields.
  - by rewrite !validateContext_non_struct.
Qed.

Lemma validateContext_first_values_decide_witness :
  result (validateContext authUserReq
            (request {[ "UserID" := ["bob"; ""]; "Password" := ["secret"] ]}
                     ∅ (fun _ => 0))) =
  result (validateContext authUserReq
            (request {[ "UserID" := ["bob"]; "Password" := ["secret"; "x"] ]}
                     ∅ (fun _ => 0))).
Proof.
  apply validateContext_first_values_decide; [reflexivity | reflexivity |].
  intros name Hin. apply list_elem_of_In in Hin. simpl in Hin.
  destruct Hin as [<-|[<-|[]]]; reflexivity.
Defined.

(** * Further properties of the issuer and the handlers *)

Section MoreHandlerProperties.

Context {PrivateKey : Type}.
Variable user_CreateUser : list Event -> User -> option error.
Variable user_AuthUser : list Event -> AuthCredentials -> option error.
Variable ParseRSAPrivateKeyFromPEM : list Byte.byte -> PrivateKey + error.
Variable SignedString : Token -> PrivateKey -> string + error.

(** X7. [generateJwt] never hands back a token together with an error: with
    an error the token is the empty string, and without one the token is what
    [SignedString] made of the five claims, under the key parsed from the key
    file, for the subject given. *)
Theorem generateJwt_token_or_error
    (UserID : string) (w w' : World) (token : string) (err : option error) :
  generateJwt ParseRSAPrivateKeyFromPEM SignedString UserID w =
  Returned (token, err) w' ->
  (err ≠ None -> token = "") /\
  (err = None ->
   exists p key,
     Files w !! keyPath = Some p /\
     ParseRSAPrivateKeyFromPEM p = inl key /\
     SignedString
       (mkToken SigningMethodRS256
          (MapClaims (claimSet UserID (Clock w (S (Ticks w)))
                        (Clock w (Ticks w) + 604800)))) key = inl token).
Proof.
  rewrite generateJwt_run. cbn zeta.
  destruct (Files w !! keyPath) as [p|]; [|intros [= <- <- <-]; by split].
  destruct (ParseRSAPrivateKeyFromPEM p) as [key|e] eqn:Hkey;
    [|intros [= <- <- <-]; by split].
  destruct (SignedString _ key) as [tok|e] eqn:Hsign; cbn [signed];
    intros [= <- <- <-]; split; try done.
  intros _. by exists p, key.
Qed.

(** X8. [generateJwt] leaves the request and the response alone: it reads
    the key file, takes two clock readings when the file is there and none
    when it is not, and changes nothing else. *)
Theorem generateJwt_frame (UserID : string) (w : World) :
  exists r w',
    generateJwt ParseRSAPrivateKeyFromPEM SignedString UserID w = Returned r w' /\
    Form w' = Form w /\ ParseErr w' = ParseErr w /\ Logger w' = Logger w /\
    Header w' = Header w /\ Status w' = Status w /\
    Files w' = Files w /\ Clock w' = Clock w /\
    Ticks w' = match Files w !! keyPath with
               | Some _ => S (S (Ticks w))
               | None => Ticks w
               end /\
    Trace w' = Trace w ++ [CallReadFile keyPath].
Proof.
  rewrite generateJwt_run. cbn zeta.
  destruct (Files w !! keyPath) as [p|]; [|by eexists _, _].
  destruct (ParseRSAPrivateKeyFromPEM p); by eexists _, _.
Qed.

(** X9. The lifetime written into a token is the seven days less the time
    that went by between the two clock readings; on a clock that does not run
    backwards the token never lives longer than seven days. *)
Theorem generateJwt_lifetime
    (UserID : string) (w : World) (p : list Byte.byte) (key : PrivateKey) :
  Files w !! keyPath = Some p ->
  ParseRSAPrivateKeyFromPEM p = inl key ->
  exists iat exp,
    result (generateJwt ParseRSAPrivateKeyFromPEM SignedString UserID w) =
    Some (signed (SignedString
                    (mkToken SigningMethodRS256
                       (MapClaims (claimSet UserID iat exp))) key)) /\
    exp - iat = 604800 - (Clock w (S (Ticks w)) - Clock w (Ticks w)) /\
    (Clock w (Ticks w) <= Clock w (S (Ticks w)) -> exp <= iat + 604800).
Proof.
  intros Hfile Hkey. rewrite generateJwt_run. cbn zeta. rewrite Hfile, Hkey.
  eexists _, _. split; [reflexivity|]. split; lia.
Qed.

(** The outcome of a validation by the handlers, in one of two shapes. *)
Lemma validateContext_cases resource w :
  ValueKind resource = Struct ->
  (validateContext resource w = Returned None w /\
   Forall (fun v => Get (Form w) v ≠ "") (flatten (schemaOf resource))) \/
  (exists e l,
     validateContext resource w = Returned (Some e) (set_Logger l (parsed w))).
Proof.
  intros Hk. destruct (validateContext_frame resource w Hk) as (err & l & Hv).
  destruct err as [e|]; [right; eauto|]. left.
  destruct (validateContext_nil_inv _ _ _ Hk Hv) as [Hw Hall].
  rewrite Hw in Hv. by split.
Qed.

(** X10. The status [createUser] answers with tells what happened: 400
    exactly when validation rejected the request, 201 exactly when the
    gateway created the user, 409 exactly when it answered
    [UserAlreadyExists], and 500 exactly when it failed in any other way. *)
Theorem createUser_status (w : World) :
  let u := mkUser (mkAuthCredentials (Get (Form w) "UserID")
                                     (Get (Form w) "Password"))
                  (Get (Form w) "Email") in
  let accepted := result (validateContext createUserReq w) = Some None in
  exists w',
    createUser user_CreateUser w = Returned tt w' /\
    (Status w' = Some StatusBadRequest <-> ~ accepted) /\
    (Status w' = Some StatusCreated <->
       accepted /\ user_CreateUser (Trace w) u = None) /\
    (Status w' = Some StatusConflict <->
       accepted /\ user_CreateUser (Trace w) u = Some UserAlreadyExists) /\
    (Status w' = Some StatusInternalServerError <->
       accepted /\ exists e, user_CreateUser (Trace w) u = Some e /\
                             e ≠ UserAlreadyExists).
Proof.
  intros u accepted. subst u accepted. rewrite createUser_run.
  destruct (validateContext_cases createUserReq w eq_refl)
    as [[Hv _]|(e & l & Hv)]; rewrite Hv; cbn [result].
  - cbn zeta. destruct (user_CreateUser _ _) as [e|]; [destruct e|];
      eexists; (split; [reflexivity|]); cbn [Status set_Status logged set_Logger];
      unfold StatusBadRequest, StatusCreated, StatusConflict,
        StatusInternalServerError;
      split_and!; split;
      first [ congruence
            | intros [_ (e' & He' & Hne)]; congruence
            | intros [_ ?]; congruence
            | intros _; split; [reflexivity|]; eexists; split;
              [reflexivity | discriminate]
            | by intros ?
            | by split ].
  - eexists. split; [reflexivity|]. cbn [Status set_Status].
    unfold StatusBadRequest, StatusCreated, StatusConflict,
      StatusInternalServerError.
    split_and!; split;
      first [ congruence
            | intros [? _]; congruence
            | by intros ? ].
Qed.

(** X11. [createUser] has nothing to do with tokens: it sets no header,
    takes no clock reading, reads no file, leaves the form as it is, and
    calls the gateway at most once. *)
Theorem createUser_frame (w : World) :
  exists w' calls,
    createUser user_CreateUser w = Returned tt w' /\
    Trace w' = Trace w ++ calls /\
    (calls = [] \/ exists u, calls = [CallCreateUser u]) /\
    Header w' = Header w /\ Ticks w' = Ticks w /\
    Files w' = Files w /\ Form w' = Form w.
Proof.
  rewrite createUser_run.
  destruct (validateContext_cases createUserReq w eq_refl)
    as [[Hv _]|(e & l & Hv)]; rewrite Hv.
  - cbn zeta. destruct (user_CreateUser _ _) as [e|]; eexists _, [_];
      (split; [reflexivity|]); split_and!; eauto.
  - eexists _, []. split; [reflexivity|]. rewrite app_nil_r.
    split_and!; auto.
Qed.

(** X12. [authUser] sets the [jwt] header exactly when it answers 200; with
    400, 401 or 500 the response headers are as they were.  No other status
    is ever given. *)
Theorem authUser_token_only_on_ok (w : World) :
  exists w',
    authUser user_AuthUser ParseRSAPrivateKeyFromPEM SignedString w =
    Returned tt w' /\
    ((Status w' = Some StatusOK /\
      exists token, Header w' = <["jwt" := token]> (Header w)) \/
     ((Status w' = Some StatusBadRequest \/
       Status w' = Some StatusUnauthorized \/
       Status w' = Some StatusInternalServerError) /\
      Header w' = Header w)).
Proof.
  rewrite authUser_run.
  destruct (validateContext_cases authUserReq w eq_refl)
    as [[Hv _]|(e & l & Hv)]; rewrite Hv.
  - cbn zeta. destruct (user_AuthUser _ _) as [e|].
    { eexists. split; [reflexivity|]. right. auto. }
    rewrite generateJwt_run. cbn zeta. cbn [Files set_Trace].
    destruct (Files w !! keyPath) as [p|];
      [|eexists; split; [reflexivity|]; right; auto].
    destruct (ParseRSAPrivateKeyFromPEM p) as [key|e];
      [|eexists; split; [reflexivity|]; right; auto].
    destruct (SignedString _ key) as [token|e]; cbn [signed];
      eexists; (split; [reflexivity|]).
    + left. split; [reflexivity|]. by exists token.
    + right. auto.
  - eexists. split; [reflexivity|]. right. auto.
Qed.

(** X13. A 200 from [authUser] means all of this happened, in this order:
    the request validated, [user.AuthUser] accepted the credentials taken
    from the form, the key file was read and parsed, and the token in the
    [jwt] header is the one signed for the very user id that was
    authenticated. *)
Theorem authUser_ok_inv (w w' : World) :
  let aC := mkAuthCredentials (Get (Form w) "UserID") (Get (Form w) "Password") in
  authUser user_AuthUser ParseRSAPrivateKeyFromPEM SignedString w =
  Returned tt w' ->
  Status w' = Some StatusOK ->
  exists p key token,
    result (validateContext authUserReq w) = Some None /\
    user_AuthUser (Trace w) aC = None /\
    Files w !! keyPath = Some p /\
    ParseRSAPrivateKeyFromPEM p = inl key /\
    SignedString
      (mkToken SigningMethodRS256
         (MapClaims (claimSet (UserID aC) (Clock w (S (Ticks w)))
                       (Clock w (Ticks w) + 604800)))) key = inl token /\
    Header w' !! "jwt" = Some token /\
    Trace w' = Trace w ++ [CallAuthUser aC; CallReadFile keyPath].
Proof.
  intros aC. subst aC. rewrite authUser_run.
  destruct (validateContext_cases authUserReq w eq_refl)
    as [[Hv _]|(e & l & Hv)]; rewrite Hv;
    [|intros [= <-]; discriminate].
  cbn zeta. destruct (user_AuthUser _ _) as [e|] eqn:Hauth;
    [intros [= <-]; discriminate|].
  rewrite generateJwt_run. cbn zeta. cbn [Files Clock Ticks set_Trace].
  destruct (Files w !! keyPath) as [p|]; [|intros [= <-]; discriminate].
  destruct (ParseRSAPrivateKeyFromPEM p) as [key|e] eqn:Hkey;
    [|intros [= <-]; discriminate].
  destruct (SignedString _ key) as [token|e] eqn:Hsign; cbn [signed];
    [|intros [= <-]; discriminate].
  intros [= <-] _. exists p, key, token. cbn [UserID].
  split_and!; try done.
  - cbn [Header set_Status set_Header]. apply lookup_insert_eq.
  - cbn [Trace set_Status set_Header set_Ticks set_Trace].
    by rewrite <- app_assoc.
Qed.

(** X14. When the request is rejected by validation or by [user.AuthUser],
    no token is prepared: the key file is not read, the clock is not read,
    and no header is set. *)
Theorem authUser_rejected_issues_nothing (w w' : World) :
  let aC := mkAuthCredentials (Get (Form w) "UserID") (Get (Form w) "Password") in
  authUser user_AuthUser ParseRSAPrivateKeyFromPEM SignedString w =
  Returned tt w' ->
  result (validateContext authUserReq w) ≠ Some None \/
  user_AuthUser (Trace w) aC ≠ None ->
  exists calls,
    Trace w' = Trace w ++ calls /\
    Forall (fun ev => ev ≠ CallReadFile keyPath) calls /\
    Ticks w' = Ticks w /\ Header w' = Header w /\
    (Status w' = Some StatusBadRequest \/ Status w' = Some StatusUnauthorized).
Proof.
  intros aC. subst aC. rewrite authUser_run.
  destruct (validateContext_cases authUserReq w eq_refl)
    as [[Hv _]|(e & l & Hv)]; rewrite Hv; cbn [result].
  - cbn zeta. destruct (user_AuthUser _ _) as [e|].
    + intros [= <-] _. eexists [_].
      split_and!; [reflexivity | by repeat constructor | done | done | by right].
    + intros _ [?|?]; done.
  - intros [= <-] _. exists []. rewrite app_nil_r. split_and!; auto.
Qed.

End MoreHandlerProperties.

Lemma generateJwt_token_or_error_witness :
  exists p key,
    someKeyFile !! keyPath = Some p /\
    stubParsePEM p = inl key /\
    stubSignedString
      (mkToken SigningMethodRS256
         (MapClaims (claimSet "bob" 1000 (1000 + 604800)))) key =
    inl "header.claims.signature".
Proof.
  exact (proj2 (generateJwt_token_or_error stubParsePEM stubSignedString "bob"
                  (request ∅ someKeyFile (fun _ => 1000)) _
                  "header.claims.signature" None eq_refl) eq_refl).
Defined.

Lemma generateJwt_lifetime_witness :
  exists iat exp,
    result (generateJwt stubParsePEM stubSignedString "bob"
              (request ∅ someKeyFile (fun k => 1000 + 3 * Z.of_nat k))) =
    Some (signed (stubSignedString
                    (mkToken SigningMethodRS256
                       (MapClaims (claimSet "bob" iat exp)))
                    [Byte.x2d; Byte.x2d])) /\
    exp - iat = 604800 - 3.
Proof.
  destruct (generateJwt_lifetime stubParsePEM stubSignedString "bob"
              (request ∅ someKeyFile (fun k => 1000 + 3 * Z.of_nat k))
              [Byte.x2d; Byte.x2d] [Byte.x2d; Byte.x2d] eq_refl eq_refl)
    as (iat & exp & Hrun & Hgap & _).
  exists iat, exp. split; [exact Hrun | exact Hgap].
Defined.


Lemma authUser_ok_inv_witness :
  let w := request {[ "UserID" := ["bob"]; "Password" := ["secret"] ]}
                   someKeyFile (fun _ => 1000) in
  let w' := after w (authUser (fun _ _ => None) stubParsePEM stubSignedString w) in
  exists p key token,
    Files w !! keyPath = Some p /\
    stubParsePEM p = inl key /\
    Header w' !! "jwt" = Some token /\
    Trace w' = [CallAuthUser (mkAuthCredentials "bob" "secret");
                CallReadFile keyPath].
Proof.
  intros w w'.
  assert (Hrun : authUser (fun _ _ => None) stubParsePEM stubSignedString w =
                 Returned tt w') by (vm_compute; reflexivity).
  assert (Hok : Status w' = Some StatusOK) by (vm_compute; reflexivity).
  destruct (authUser_ok_inv (fun _ _ => None) stubParsePEM stubSignedString
              w w' Hrun Hok)
    as (p & key & token & _ & _ & Hfile & Hkey & _ & Hhdr & Htrace).
  exists p, key, token. split_and!; [exact Hfile | exact Hkey | exact Hhdr |].
  exact Htrace.
Defined.

Lemma authUser_rejected_issues_nothing_witness :
  let w := request {[ "UserID" := ["bob"]; "Password" := ["wrong"] ]}
                   someKeyFile (fun _ => 1000) in
  let refuse := fun (_ : list Event) (_ : AuthCredentials) =>
                  Some (OtherError "user" "invalid credentials") in
  let w' := after w (authUser refuse stubParsePEM stubSignedString w) in
  exists calls,
    Trace w' = Trace w ++ calls /\
    Forall (fun ev => ev ≠ CallReadFile keyPath) calls /\
    Ticks w' = Ticks w /\ Header w' = Header w /\
    (Status w' = Some StatusBadRequest \/ Status w' = Some StatusUnauthorized).
Proof.
  intros w refuse w'.
  apply (authUser_rejected_issues_nothing refuse stubParsePEM stubSignedString
           w w' eq_refl).
  right. discriminate.
Defined.

Section LoginOutcome.

Context {PrivateKey : Type}.
Variable user_AuthUser : list Event -> AuthCredentials -> option error.
Variable ParseRSAPrivateKeyFromPEM : list Byte.byte -> PrivateKey + error.
Variable SignedString : Token -> PrivateKey -> string + error.

(** X15. The status of [authUser] as a function of what it met: 400 when
    validation rejects; else 401 when [user.AuthUser] returns any error; else
    500 when the key file is missing, does not parse, or signing fails; and
    200 only when every step went through. *)
Theorem authUser_status (w : World) :
  let aC := mkAuthCredentials (Get (Form w) "UserID") (Get (Form w) "Password") in
  let t := mkToken SigningMethodRS256
             (MapClaims (claimSet (UserID aC) (Clock w (S (Ticks w)))
                           (Clock w (Ticks w) + 604800))) in
  exists w',
    authUser user_AuthUser ParseRSAPrivateKeyFromPEM SignedString w =
    Returned tt w' /\
    Status w' =
    Some match result (validateContext authUserReq w) with
         | Some None =>
             match user_AuthUser (Trace w) aC with
             | Some _ => StatusUnauthorized
             | None =>
                 match Files w !! keyPath with
                 | None => StatusInternalServerError
                 | Some p =>
                     match ParseRSAPrivateKeyFromPEM p with
                     | inr _ => StatusInternalServerError
                     | inl key =>
                         match SignedString t key with
                         | inr _ => StatusInternalServerError
                         | inl _ => StatusOK
                         end
                     end
                 end
             end
         | _ => StatusBadRequest
         end.
Proof.
  intros aC t. subst aC t. rewrite authUser_run.
  destruct (validateContext_cases authUserReq w eq_refl)
    as [[Hv _]|(e & l & Hv)]; rewrite Hv; cbn [result];
    [|by eexists].
  cbn zeta. destruct (user_AuthUser _ _) as [e|]; [by eexists|].
  rewrite generateJwt_run. cbn zeta. cbn [Files Clock Ticks set_Trace UserID].
  destruct (Files w !! keyPath) as [p|]; [|by eexists].
  destruct (ParseRSAPrivateKeyFromPEM p) as [key|e]; [|by eexists].
  destruct (SignedString _ key) as [token|e]; by eexists.
Qed.

End LoginOutcome.
